(** * The GitHub add-on's row formatter ([hgrid-github.js])

    A shallow embedding of [TaskNameFormatter], the callback that the file
    grid of the GitHub add-on invokes once per row, together with the
    [extensions] table it consults, and the properties of the markup it
    returns.

    The formatter is one JavaScript function built from string
    concatenation, so the embedding consists of
    - the primitive values a row record can hold and the conversions the
      operators [+], [*], [==], [!=], [if] and [indexOf] apply to them;
    - strings as sequences of characters, with global single-character
      replacement ([String.prototype.replace] with a [/c/g] pattern);
    - a row record as a finite map from property names to values, a
      missing property reading as [undefined];
    - the function itself, returning either the fragment or the
      [TypeError] raised by its first statement. *)

From Stdlib Require Import ZArith Ascii DecimalString.
From stdpp Require Import gmap strings.

Local Open Scope Z_scope.

(* Concatenation of literals is evaluated by [simpl] throughout. *)
#[local] Arguments String.append !s1 s2 : simpl nomatch.

(** ** Primitive values *)

(** Numbers.  The grid only ever computes with tree depths and identifiers:
    [Int z] is the integer [z], meant for [|z| <= 2^53], the range in which
    double arithmetic is exact and [Number::toString] prints the decimal
    numeral. [NaN] is what [undefined] and non-numeric text convert to. *)
Inductive number : Type :=
  | NaN
  | Int (z : Z).

(** The values a property of a row record holds, as the page's data
    carries them: [undefined], [null], booleans, numbers and strings. *)
Inductive jsval : Type :=
  | JUndefined
  | JNull
  | JBool (b : bool)
  | JNum (n : number)
  | JStr (s : string).

(** The outcome of a call: the returned string or a raised exception. *)
Inductive exn : Type :=
  | TypeError.

Inductive completion (A : Type) : Type :=
  | Return (a : A)
  | Throw (e : exn).
Arguments Return {A} a.
Arguments Throw {A} e.

(** A row record; property names are the keys. *)
Abbreviation object := (gmap string jsval).

(** [o[k]]: reading a property that is not there gives [undefined]. *)
Definition get (o : object) (k : string) : jsval :=
  default JUndefined (o !! k).

(** ** Strings *)

Module Str.

(** [s.replace(/c/g, by)] for a single literal character [c]. *)
Fixpoint replace (c : ascii) (by_ : string) (s : string) : string :=
  match s with
  | EmptyString => EmptyString
  | String a s' =>
      if Ascii.eqb a c then by_ +:+ replace c by_ s'
      else String a (replace c by_ s')
  end.

(** [s.indexOf(sub) != -1]: [sub] occurs in [s]. *)
Fixpoint includes (sub s : string) : bool :=
  String.prefix sub s ||
  match s with
  | EmptyString => false
  | String _ s' => includes sub s'
  end.

(** Character [c] occurs nowhere in [s]. *)
Fixpoint free (c : ascii) (s : string) : bool :=
  match s with
  | EmptyString => true
  | String a s' => negb (Ascii.eqb a c) && free c s'
  end.

(** Every character of [s] satisfies [p]. *)
Fixpoint all (p : ascii -> bool) (s : string) : bool :=
  match s with
  | EmptyString => true
  | String a s' => p a && all p s'
  end.

End Str.

(** ** Conversions of the language *)

(** Decimal numeral of an integer, with a leading [-] when negative. *)
Definition decimal (z : Z) : string :=
  NilZero.string_of_int (Z.to_int z).

(** [Number::toString]. *)
Definition number_to_string (n : number) : string :=
  match n with
  | NaN => "NaN"
  | Int z => decimal z
  end.

(** [ToString], as applied by [+] to the non-string operand. *)
Definition ToString (v : jsval) : string :=
  match v with
  | JUndefined => "undefined"
  | JNull => "null"
  | JBool true => "true"
  | JBool false => "false"
  | JNum n => number_to_string n
  | JStr s => s
  end.

(** [ToBoolean], as applied by [if]. *)
Definition ToBoolean (v : jsval) : bool :=
  match v with
  | JUndefined | JNull => false
  | JBool b => b
  | JNum NaN => false
  | JNum (Int z) => negb (z =? 0)
  | JStr s => negb (String.eqb s "")
  end.

(** [a * b] on numbers; exact as long as the product is a safe integer. *)
Definition mul (a b : number) : number :=
  match a, b with
  | Int x, Int y => Int (x * y)
  | _, _ => NaN
  end.

(** [x === y]: same type and same value; [NaN] equals nothing. *)
Definition strict_eq (x y : jsval) : bool :=
  match x, y with
  | JUndefined, JUndefined => true
  | JNull, JNull => true
  | JBool a, JBool b => Bool.eqb a b
  | JNum (Int a), JNum (Int b) => a =? b
  | JStr s, JStr t => String.eqb s t
  | _, _ => false
  end.

(** [v == lit] for a string literal [lit] that is not a numeric literal
    (here ['folder'] and ["false"]).  A string is compared as is; a number or
    a boolean is compared with [ToNumber(lit)], which is [NaN] and equal to
    nothing; [undefined] and [null] equal only each other. *)
Definition loose_eq_text (v : jsval) (lit : string) : bool :=
  match v with
  | JStr s => String.eqb s lit
  | _ => false
  end.

(** [arr.indexOf(v)]: the first position holding a value strictly equal to
    [v], or [-1]. *)
Fixpoint indexOf_from (i : Z) (arr : list jsval) (v : jsval) : Z :=
  match arr with
  | [] => -1
  | x :: arr' => if strict_eq x v then i else indexOf_from (i + 1) arr' v
  end.

Definition indexOf (arr : list jsval) (v : jsval) : Z := indexOf_from 0 arr v.

(** ** The program *)

(** [var extensions = [...]]: the file extensions that have an icon of their
    own. *)
Definition extensions : list string :=
  ["3gp"; "7z"; "ace"; "ai"; "aif"; "aiff"; "amr"; "asf"; "asx"; "bat"; "bin"; "bmp"; "bup";
   "cab"; "cbr"; "cda"; "cdl"; "cdr"; "chm"; "dat"; "divx"; "dll"; "dmg"; "doc"; "docx"; "dss"; "dvf"; "dwg";
   "eml"; "eps"; "exe"; "fla"; "flv"; "gif"; "gz"; "hqx"; "htm"; "html"; "ifo"; "indd"; "iso"; "jar";
   "jpeg"; "jpg"; "lnk"; "log"; "m4a"; "m4b"; "m4p"; "m4v"; "mcd"; "mdb"; "mid"; "mov"; "mp2"; "mp3"; "mp4";
   "mpeg"; "mpg"; "msi"; "mswmm"; "ogg"; "pdf"; "png"; "pps"; "ps"; "psd"; "pst"; "ptb"; "pub"; "qbb";
   "qbw"; "qxd"; "ram"; "rar"; "rm"; "rmvb"; "rtf"; "sea"; "ses"; "sit"; "sitx"; "ss"; "swf"; "tgz"; "thm";
   "tif"; "tmp"; "torrent"; "ttf"; "txt"; "vcd"; "vob"; "wav"; "wma"; "wmv"; "wps"; "xls"; "xpi"; "zip"].

Section Formatter.

(** [StringToNumber] of the language runtime, for the case that a record
    carries its depth as text.  Nothing below depends on how text is read
    as a number. *)
Variable StringToNumber : string -> number.

(** [ToNumber], as applied by [*] to its operands. *)
Definition ToNumber (v : jsval) : number :=
  match v with
  | JUndefined => NaN
  | JNull => Int 0
  | JBool true => Int 1
  | JBool false => Int 0
  | JNum n => n
  | JStr s => StringToNumber s
  end.

(** [value.replace(/&/g,"&amp;").replace(/</g,"&lt;").replace(/>/g,"&gt;")]
    on a string. *)
Definition escape (value : string) : string :=
  Str.replace ">" "&gt;" (Str.replace "<" "&lt;" (Str.replace "&" "&amp;" value)).

(** [var spacer = ...]. *)
Definition spacer (dataContext : object) : string :=
  "<span style='display:inline-block;height:1px;width:"
  +:+ number_to_string (mul (Int 18) (ToNumber (get dataContext "indent")))
  +:+ "px'></span>".

(** [var link = value; if (dataContext['url']) { link = ... }]. *)
Definition link (value : string) (dataContext : object) : string :=
  if ToBoolean (get dataContext "url")
  then "<a href=" +:+ ToString (get dataContext "url") +:+ ">" +:+ value +:+ "</a>"
  else value.

(** [var imageUrl = ...; if (extensions.indexOf(...)==-1) { imageUrl = ... }]. *)
Definition imageUrl (dataContext : object) : string :=
  if indexOf (JStr <$> extensions) (get dataContext "ext") =? -1
  then "/static/img/hgrid/file.png"
  else "/static/img/hgrid/fatcowicons/file_extension_"
       +:+ ToString (get dataContext "ext") +:+ ".png".

(** [var TaskNameFormatter = function(row, cell, value, columnDef,
    dataContext)].  [value.replace] exists only on a string: on any other
    primitive the first statement raises a [TypeError]. *)
Definition TaskNameFormatter
    (row cell : Z) (value : jsval) (columnDef dataContext : object)
    : completion string :=
  match value with
  | JStr text =>
      let value := escape text in
      let spacer := spacer dataContext in
      if loose_eq_text (get dataContext "type") "folder" then
        if ToBoolean (get dataContext "_collapsed") then
          if negb (loose_eq_text (get dataContext "can_view") "false") then
            Return (spacer +:+ " <span class='toggle expand nav-filter-item' data-hgrid-nav="
                    +:+ ToString (get dataContext "uid")
                    +:+ "></span></span><span class='folder folder-open'></span>&nbsp;"
                    +:+ value +:+ "</a>")
          else
            Return (spacer +:+ " <span class='toggle nav-filter-item' data-hgrid-nav="
                    +:+ ToString (get dataContext "uid")
                    +:+ "></span></span><span class='folder folder-delete'></span>&nbsp;"
                    +:+ "Private Component" +:+ "</a>")
        else
          if negb (loose_eq_text (get dataContext "can_view") "false") then
            Return (spacer +:+ " <span class='toggle collapse nav-filter-item' data-hgrid-nav="
                    +:+ ToString (get dataContext "uid")
                    +:+ "></span><span class='folder folder-close'></span>&nbsp;"
                    +:+ value +:+ "</a>")
          else
            Return (spacer +:+ " <span class='toggle nav-filter-item' data-hgrid-nav="
                    +:+ ToString (get dataContext "uid")
                    +:+ "></span><span class='folder folder-delete'></span>&nbsp;"
                    +:+ "Private Component" +:+ "</a>")
      else
        let link := link value dataContext in
        let imageUrl := imageUrl dataContext in
        Return (spacer
                +:+ " <span class='toggle'></span><span class='file' style='background: url("
                +:+ imageUrl
                +:+ ") no-repeat left top;'></span>&nbsp;" +:+ link)
  | _ => Throw TypeError
  end.

End Formatter.

(** ** Vocabulary of the statements *)

(** What the three replacements amount to on one character. *)
Definition escape_char (c : ascii) : string :=
  if Ascii.eqb c "&" then "&amp;"
  else if Ascii.eqb c "<" then "&lt;"
  else if Ascii.eqb c ">" then "&gt;"
  else String c "".

(** Translation of a string character by character. *)
Fixpoint translate (f : ascii -> string) (s : string) : string :=
  match s with
  | EmptyString => EmptyString
  | String a s' => f a +:+ translate f s'
  end.

(** Characters of a numeral: digits and the sign. *)
Definition numeral_char (c : ascii) : bool :=
  let n := N_of_ascii c in
  ((48 <=? n) && (n <=? 57))%N || Ascii.eqb c "-".

(** Characters of the icon paths: lower-case letters, digits, [_], [/]
    and [.]. *)
Definition path_char (c : ascii) : bool :=
  let n := N_of_ascii c in
  ((97 <=? n) && (n <=? 122))%N || ((48 <=? n) && (n <=? 57))%N
  || Ascii.eqb c "_" || Ascii.eqb c "/" || Ascii.eqb c ".".

(** Largest magnitude up to which every integer is a double. *)
Definition max_safe : Z := 2 ^ 53.

(** The folder is masked: [dataContext['can_view'] != "false"] fails. *)
Definition masked (dataContext : object) : bool :=
  loose_eq_text (get dataContext "can_view") "false".

(** The record takes the folder branch: [dataContext['type']=='folder']. *)
Definition is_folder (dataContext : object) : bool :=
  loose_eq_text (get dataContext "type") "folder".

(** Number of occurrences of the character [c] in [s]. *)
Fixpoint count_char (c : ascii) (s : string) : nat :=
  match s with
  | EmptyString => O
  | String a s' => ((if Ascii.eqb a c then 1 else 0) + count_char c s')%nat
  end.

(** The text holds none of the three characters that [escape] rewrites. *)
Definition plain (s : string) : bool :=
  Str.free "&" s && Str.free "<" s && Str.free ">" s.

(** Every [&] of the text starts one of the entities [&amp;], [&lt;],
    [&gt;]. *)
Fixpoint entities_only (s : string) : bool :=
  match s with
  | EmptyString => true
  | String a s' =>
      (if Ascii.eqb a "&"
       then String.prefix "amp;" s' || String.prefix "lt;" s' || String.prefix "gt;" s'
       else true)
      && entities_only s'
  end.

(** The properties of a record that the formatter reads. *)
Definition read_properties : list string :=
  ["indent"; "type"; "_collapsed"; "can_view"; "uid"; "url"; "ext"].

(** ** Sample records *)

(** The one column of the grid ([columns: [...]] in [HGrid.create]), without
    its [formatter] entry, which is the function above.  Its [field] names
    the property whose value the grid hands over as [value]. *)
Definition name_column : object :=
  {[ "id" := JStr "name"; "name" := JStr "Name"; "field" := JStr "name";
     "width" := JNum (Int 550); "cssClass" := JStr "cell-title";
     "sortable" := JBool true; "defaultSortAsc" := JBool true ]}.

(** A reading of numeric text for the sample records, none of which holds
    text where a number is expected. *)
Definition text_as_NaN : string -> number := fun _ => NaN.

(** [{type:"folder", collapsed:true, can_view:"true", uid:7, name:"Docs",
    indent:1}]. *)
Definition docs_flagged_collapsed : object :=
  {[ "type" := JStr "folder"; "collapsed" := JBool true; "can_view" := JStr "true";
     "uid" := JNum (Int 7); "name" := JStr "Docs"; "indent" := JNum (Int 1) ]}.

(** [{type:"folder", _collapsed:true, can_view:"true", uid:7, name:"Docs",
    indent:1}]. *)
Definition docs_collapsed : object :=
  {[ "type" := JStr "folder"; "_collapsed" := JBool true; "can_view" := JStr "true";
     "uid" := JNum (Int 7); "name" := JStr "Docs"; "indent" := JNum (Int 1) ]}.

(** [{type:"folder", _collapsed:true, can_view:"false", uid:3, name:"span",
    indent:0}]. *)
Definition masked_span : object :=
  {[ "type" := JStr "folder"; "_collapsed" := JBool true; "can_view" := JStr "false";
     "uid" := JNum (Int 3); "name" := JStr "span"; "indent" := JNum (Int 0) ]}.

(** [{type:"folder", can_view:"false", uid:"n42", indent:2}]. *)
Definition masked_folder : object :=
  {[ "type" := JStr "folder"; "can_view" := JStr "false";
     "uid" := JStr "n42"; "indent" := JNum (Int 2) ]}.

(** [{type:"file", ext:"txt", uid:9, indent:1}]: a row without a name. *)
Definition unnamed_file : object :=
  {[ "type" := JStr "file"; "ext" := JStr "txt";
     "uid" := JNum (Int 9); "indent" := JNum (Int 1) ]}.

(** [{type:"file", name:"a&b.pdf", ext:"pdf", url:"http://x", uid:5,
    indent:2}]. *)
Definition linked_pdf : object :=
  {[ "type" := JStr "file"; "name" := JStr "a&b.pdf"; "ext" := JStr "pdf";
     "url" := JStr "http://x"; "uid" := JNum (Int 5); "indent" := JNum (Int 2) ]}.

(** [{type:"file", name:"notes.xyz", ext:"xyz", uid:6, indent:2}]. *)
Definition plain_xyz : object :=
  {[ "type" := JStr "file"; "name" := JStr "notes.xyz"; "ext" := JStr "xyz";
     "uid" := JNum (Int 6); "indent" := JNum (Int 2) ]}.

(** [{name:"README", indent:0}]: neither [type] nor [ext] nor [url]. *)
Definition bare_row : object :=
  {[ "name" := JStr "README"; "indent" := JNum (Int 0) ]}.

(** * Properties *)

(** ** Facts about strings *)

Module StrFacts.
Import Str.

Lemma app_assoc (a b c : string) : (a +:+ b) +:+ c = a +:+ b +:+ c.
Proof. induction a as [|x a IH]; simpl; [reflexivity | f_equal; exact IH]. Qed.

Lemma app_nil_r (a : string) : a +:+ "" = a.
Proof. induction a as [|x a IH]; simpl; [reflexivity | f_equal; exact IH]. Qed.

Lemma prefix_app (p b : string) : String.prefix p (p +:+ b) = true.
Proof.
  induction p as [|x p IH]; simpl; [now destruct b |].
  destruct (ascii_dec x x); [exact IH | congruence].
Qed.

Lemma prefix_split (p s : string) :
  String.prefix p s = true -> exists b, s = p +:+ b.
Proof.
  revert s; induction p as [|x p IH]; intros s H.
  - now exists s.
  - destruct s as [|y s]; simpl in H; [discriminate |].
    destruct (ascii_dec x y) as [->|]; [| discriminate].
    destruct (IH s H) as [b ->]. now exists b.
Qed.

Lemma includes_prefix (sub s : string) :
  String.prefix sub s = true -> includes sub s = true.
Proof. intros H. destruct s; cbn [includes]; now rewrite H. Qed.

(** [includes] finds exactly the strings that can be cut around [sub]. *)
Lemma includes_intro (a sub b : string) : includes sub (a +:+ sub +:+ b) = true.
Proof.
  induction a as [|x a IH]; simpl.
  - apply includes_prefix, prefix_app.
  - rewrite IH. apply orb_true_r.
Qed.

Lemma includes_elim (sub s : string) :
  includes sub s = true -> exists a b, s = a +:+ sub +:+ b.
Proof.
  induction s as [|x s IH]; cbn [includes]; intros H.
  - apply orb_true_iff in H as [H | H]; [| discriminate].
    destruct (prefix_split _ _ H) as [b Hb]. exists "", b. exact Hb.
  - apply orb_true_iff in H as [H | H].
    + destruct (prefix_split _ _ H) as [b ->]. now exists "", b.
    + destruct (IH H) as (a & b & ->). now exists (String x a), b.
Qed.

(** An occurrence of a pattern cannot start inside a stretch that lacks
    the pattern's first character. *)
Lemma includes_skip (c : ascii) (p v rest : string) :
  free c v = true ->
  includes (String c p) (v +:+ rest) = includes (String c p) rest.
Proof.
  induction v as [|x v IH]; simpl; intros H; [reflexivity |].
  apply andb_true_iff in H as [Hx Hv].
  destruct (ascii_dec c x) as [->|].
  - now rewrite Ascii.eqb_refl in Hx.
  - now apply IH.
Qed.

Lemma includes_free (c : ascii) (p s : string) :
  free c s = true -> includes (String c p) s = false.
Proof.
  intros H. rewrite <- (app_nil_r s), (includes_skip c p s "" H). reflexivity.
Qed.

Lemma free_app (c : ascii) (a b : string) :
  free c (a +:+ b) = free c a && free c b.
Proof.
  induction a as [|x a IH]; simpl; [reflexivity |].
  now rewrite IH, andb_assoc.
Qed.

Lemma all_app (p : ascii -> bool) (a b : string) :
  all p (a +:+ b) = all p a && all p b.
Proof.
  induction a as [|x a IH]; simpl; [reflexivity |].
  now rewrite IH, andb_assoc.
Qed.

Lemma all_free (p : ascii -> bool) (c : ascii) (s : string) :
  p c = false -> all p s = true -> free c s = true.
Proof.
  intros Hc; induction s as [|x s IH]; simpl; [reflexivity |].
  intros H. apply andb_true_iff in H as [Hx Hs].
  rewrite (IH Hs), andb_true_r.
  destruct (Ascii.eqb_spec x c) as [->|]; [congruence | reflexivity].
Qed.

Lemma replace_app (c : ascii) (r a b : string) :
  replace c r (a +:+ b) = replace c r a +:+ replace c r b.
Proof.
  induction a as [|x a IH]; simpl; [reflexivity |].
  rewrite IH. destruct (Ascii.eqb x c); [now rewrite app_assoc | reflexivity].
Qed.

(** After [replace c r], the character [c] is gone, provided the
    replacement text does not bring it back. *)
Lemma replace_free (c : ascii) (r s : string) :
  free c r = true -> free c (replace c r s) = true.
Proof.
  intros Hr; induction s as [|x s IH]; simpl; [reflexivity |].
  destruct (Ascii.eqb x c) eqn:E.
  - now rewrite free_app, Hr, IH.
  - simpl. now rewrite E, IH.
Qed.

(** A replacement of another character keeps [c] out as well. *)
Lemma replace_keeps_free (c d : ascii) (r s : string) :
  free c r = true -> free c s = true -> free c (replace d r s) = true.
Proof.
  intros Hr; induction s as [|x s IH]; simpl; [reflexivity |].
  intros H. apply andb_true_iff in H as [Hx Hs].
  destruct (Ascii.eqb x d).
  - now rewrite free_app, Hr, IH.
  - simpl. now rewrite Hx, IH.
Qed.

End StrFacts.

(** ** Facts about the conversions *)

Lemma uint_numeral (d : Decimal.uint) :
  Str.all numeral_char (NilEmpty.string_of_uint d) = true.
Proof. induction d; simpl; auto. Qed.

Lemma decimal_numeral (z : Z) : Str.all numeral_char (decimal z) = true.
Proof.
  unfold decimal, NilZero.string_of_int, NilZero.string_of_uint.
  destruct (Z.to_int z) as [d | d]; destruct d; simpl; auto using uint_numeral.
Qed.

Lemma number_to_string_free (c : ascii) (n : number) :
  numeral_char c = false -> Str.free c "NaN" = true ->
  Str.free c (number_to_string n) = true.
Proof.
  intros Hc HN. destruct n as [| z]; [exact HN |].
  apply (StrFacts.all_free numeral_char); [exact Hc | apply decimal_numeral].
Qed.

(** ** Facts about escaping *)

Lemma escape_app (a b : string) : escape (a +:+ b) = escape a +:+ escape b.
Proof. unfold escape. now rewrite !StrFacts.replace_app. Qed.

Lemma escape_cons (c : ascii) (s : string) :
  escape (String c s) = escape_char c +:+ escape s.
Proof.
  change (String c s) with (String c "" +:+ s). rewrite escape_app. f_equal.
  unfold escape, escape_char; simpl.
  destruct (Ascii.eqb_spec c "&") as [->|Hamp]; [reflexivity |]; simpl.
  destruct (Ascii.eqb_spec c "<") as [->|Hlt]; [reflexivity |]; simpl.
  destruct (Ascii.eqb_spec c ">") as [->|Hgt]; reflexivity.
Qed.

Lemma escape_translate (s : string) : escape s = translate escape_char s.
Proof.
  induction s as [|c s IH]; [reflexivity |].
  rewrite escape_cons, IH. reflexivity.
Qed.

Lemma escape_free_lt (s : string) : Str.free "<" (escape s) = true.
Proof.
  unfold escape. apply StrFacts.replace_keeps_free; [reflexivity |].
  apply StrFacts.replace_free. reflexivity.
Qed.

Lemma escape_free_gt (s : string) : Str.free ">" (escape s) = true.
Proof. unfold escape. apply StrFacts.replace_free. reflexivity. Qed.

(** ** Facts about records and the extension table *)

Lemma Return_inj {A : Type} (a b : A) : Return a = Return b -> a = b.
Proof. congruence. Qed.

Lemma get_insert_ne (o : object) (k k' : string) (x : jsval) :
  k <> k' -> get (<[k := x]> o) k' = get o k'.
Proof. intros H. unfold get. now rewrite lookup_insert_ne. Qed.

Lemma get_missing (o : object) (k : string) : o !! k = None -> get o k = JUndefined.
Proof. unfold get. now intros ->. Qed.

Lemma get_present (o : object) (k : string) (x : jsval) : o !! k = Some x -> get o k = x.
Proof. unfold get. now intros ->. Qed.

Lemma indexOf_from_absent (i : Z) (l : list string) (v : jsval) :
  0 <= i ->
  (indexOf_from i (JStr <$> l) v =? -1)
  = negb (existsb (fun x => strict_eq (JStr x) v) l).
Proof.
  revert i; induction l as [|x l IH]; intros i Hi; [reflexivity |].
  rewrite fmap_cons. cbn [indexOf_from existsb].
  destruct (strict_eq (JStr x) v); cbn [negb orb].
  - apply Z.eqb_neq. lia.
  - apply IH. lia.
Qed.

Lemma existsb_text (l : list string) (e : string) :
  existsb (fun x => strict_eq (JStr x) (JStr e)) l = bool_decide (e ∈ l).
Proof.
  induction l as [|x l IH]; cbn [existsb].
  - symmetry. apply bool_decide_eq_false. apply not_elem_of_nil.
  - rewrite IH. change (strict_eq (JStr x) (JStr e)) with (String.eqb x e).
    destruct (String.eqb_spec x e) as [->|Hne]; cbn [orb].
    + symmetry. apply bool_decide_eq_true. apply elem_of_cons. now left.
    + apply bool_decide_ext. rewrite elem_of_cons.
      split; [auto | intros [E | E]; [congruence | exact E]].
Qed.

Lemma existsb_not_text (l : list string) (v : jsval) :
  (forall e, v <> JStr e) -> existsb (fun x => strict_eq (JStr x) v) l = false.
Proof.
  intros Hv. induction l as [|x l IH]; cbn [existsb]; [reflexivity |].
  rewrite IH, orb_false_r. destruct v as [| | | [|]|e]; try reflexivity.
  now destruct (Hv e).
Qed.

(** The icon is picked by exact membership of the text [ext] in the table;
    anything else, text or not, gets the generic icon. *)
Lemma imageUrl_cases (dc : object) :
  imageUrl dc =
  match get dc "ext" with
  | JStr e =>
      if bool_decide (e ∈ extensions)
      then "/static/img/hgrid/fatcowicons/file_extension_" +:+ e +:+ ".png"
      else "/static/img/hgrid/file.png"
  | _ => "/static/img/hgrid/file.png"
  end.
Proof.
  unfold imageUrl, indexOf. rewrite indexOf_from_absent by lia.
  destruct (get dc "ext") as [| | b | n | e].
  1-4: now rewrite existsb_not_text.
  rewrite existsb_text. now destruct (bool_decide (e ∈ extensions)).
Qed.

Lemma extensions_path_chars (e : string) :
  e ∈ extensions -> Str.all path_char e = true.
Proof.
  intros H%list_elem_of_In. revert e H. apply forallb_forall.
  vm_compute. reflexivity.
Qed.

(** ** The five branches *)

Section Branches.

Variable StringToNumber : string -> number.
Variables (row cell : Z) (columnDef : object).

Local Abbreviation formatter := (TaskNameFormatter StringToNumber row cell).

Lemma formatter_not_text (value : jsval) (dc : object) :
  (forall text, value <> JStr text) ->
  formatter value columnDef dc = Throw TypeError.
Proof. intros H. destruct value as [| | | |text]; try reflexivity. now destruct (H text). Qed.

Lemma formatter_file (v : string) (dc : object) :
  is_folder dc = false ->
  formatter (JStr v) columnDef dc
  = Return (spacer StringToNumber dc
            +:+ " <span class='toggle'></span><span class='file' style='background: url("
            +:+ imageUrl dc
            +:+ ") no-repeat left top;'></span>&nbsp;" +:+ link (escape v) dc).
Proof. unfold is_folder, TaskNameFormatter. now intros ->. Qed.

Lemma formatter_collapsed_viewable (v : string) (dc : object) :
  is_folder dc = true -> ToBoolean (get dc "_collapsed") = true -> masked dc = false ->
  formatter (JStr v) columnDef dc
  = Return (spacer StringToNumber dc +:+ " <span class='toggle expand nav-filter-item' data-hgrid-nav="
            +:+ ToString (get dc "uid")
            +:+ "></span></span><span class='folder folder-open'></span>&nbsp;"
            +:+ escape v +:+ "</a>").
Proof. unfold is_folder, masked, TaskNameFormatter. now intros -> -> ->. Qed.

Lemma formatter_collapsed_masked (v : string) (dc : object) :
  is_folder dc = true -> ToBoolean (get dc "_collapsed") = true -> masked dc = true ->
  formatter (JStr v) columnDef dc
  = Return (spacer StringToNumber dc +:+ " <span class='toggle nav-filter-item' data-hgrid-nav="
            +:+ ToString (get dc "uid")
            +:+ "></span></span><span class='folder folder-delete'></span>&nbsp;"
            +:+ "Private Component</a>").
Proof. unfold is_folder, masked, TaskNameFormatter. now intros -> -> ->. Qed.

Lemma formatter_expanded_viewable (v : string) (dc : object) :
  is_folder dc = true -> ToBoolean (get dc "_collapsed") = false -> masked dc = false ->
  formatter (JStr v) columnDef dc
  = Return (spacer StringToNumber dc +:+ " <span class='toggle collapse nav-filter-item' data-hgrid-nav="
            +:+ ToString (get dc "uid")
            +:+ "></span><span class='folder folder-close'></span>&nbsp;"
            +:+ escape v +:+ "</a>").
Proof. unfold is_folder, masked, TaskNameFormatter. now intros -> -> ->. Qed.

Lemma formatter_expanded_masked (v : string) (dc : object) :
  is_folder dc = true -> ToBoolean (get dc "_collapsed") = false -> masked dc = true ->
  formatter (JStr v) columnDef dc
  = Return (spacer StringToNumber dc +:+ " <span class='toggle nav-filter-item' data-hgrid-nav="
            +:+ ToString (get dc "uid")
            +:+ "></span><span class='folder folder-delete'></span>&nbsp;"
            +:+ "Private Component</a>").
Proof. unfold is_folder, masked, TaskNameFormatter. now intros -> -> ->. Qed.

End Branches.

(** ** The claims *)

Section Claims.

Variable StringToNumber : string -> number.
Variables (row cell : Z) (columnDef : object).

Local Abbreviation formatter := (TaskNameFormatter StringToNumber row cell).

Lemma formatter_starts_with_spacer (v : string) (dc : object) :
  exists rest : string, formatter (JStr v) columnDef dc = Return (spacer StringToNumber dc +:+ rest).
Proof.
  unfold TaskNameFormatter.
  destruct (loose_eq_text (get dc "type") "folder");
    [destruct (ToBoolean (get dc "_collapsed"));
     destruct (negb (loose_eq_text (get dc "can_view") "false")) |];
    eexists; reflexivity.
Qed.

Lemma spacer_insert_name (n : jsval) (dc : object) :
  spacer StringToNumber (<["name" := n]> dc) = spacer StringToNumber dc.
Proof. unfold spacer. now rewrite get_insert_ne. Qed.

(** C1, as amended.  For a folder record whose [can_view] is the text
    ["false"], the fragment is built from the indentation, the uid and fixed
    markup only, collapsed or not: whatever the cell value and the record's
    [name] are, the same fragment comes back, with the label
    "Private Component" where a viewable folder shows its name. *)
Theorem masked_folder_ignores_name (v : string) (n : jsval) (dc : object) :
  get dc "type" = JStr "folder" ->
  get dc "can_view" = JStr "false" ->
  formatter (JStr v) columnDef (<["name" := n]> dc)
  = Return (spacer StringToNumber dc
            +:+ " <span class='toggle nav-filter-item' data-hgrid-nav="
            +:+ ToString (get dc "uid")
            +:+ (if ToBoolean (get dc "_collapsed") then "></span></span>" else "></span>")
            +:+ "<span class='folder folder-delete'></span>&nbsp;Private Component</a>")
  /\ forall (v' : string) (n' : jsval),
       formatter (JStr v') columnDef (<["name" := n']> dc)
       = formatter (JStr v) columnDef (<["name" := n]> dc).
Proof.
  intros Htype Hview.
  assert (shape : forall (w : string) (m : jsval),
    formatter (JStr w) columnDef (<["name" := m]> dc)
    = Return (spacer StringToNumber dc
              +:+ " <span class='toggle nav-filter-item' data-hgrid-nav="
              +:+ ToString (get dc "uid")
              +:+ (if ToBoolean (get dc "_collapsed") then "></span></span>" else "></span>")
              +:+ "<span class='folder folder-delete'></span>&nbsp;Private Component</a>")).
  { intros w m.
    assert (Hf : is_folder (<["name" := m]> dc) = true)
      by (unfold is_folder; rewrite get_insert_ne, Htype; done).
    assert (Hm : masked (<["name" := m]> dc) = true)
      by (unfold masked; rewrite get_insert_ne, Hview; done).
    assert (Hc : get (<["name" := m]> dc) "_collapsed" = get dc "_collapsed")
      by (apply get_insert_ne; done).
    assert (Hu : get (<["name" := m]> dc) "uid" = get dc "uid")
      by (apply get_insert_ne; done).
    destruct (ToBoolean (get dc "_collapsed")) eqn:E.
    - rewrite formatter_collapsed_masked by (rewrite ?Hc; assumption).
      now rewrite spacer_insert_name, Hu.
    - rewrite formatter_expanded_masked by (rewrite ?Hc; assumption).
      now rewrite spacer_insert_name, Hu. }
  split; [apply shape |]. intros v' n'. now rewrite !shape.
Qed.

(** C2, as amended.  For the record [{type:"folder", _collapsed:true,
    can_view:"true", uid:7, name:"Docs", indent:1}] the formatter returns a
    fragment with an 18px-wide spacer, an expand toggle whose
    [data-hgrid-nav] is 7, the [folder-open] icon class and the text
    "Docs". *)
Theorem docs_collapsed_fragment :
  let out :=
    "<span style='display:inline-block;height:1px;width:18px'></span> <span class='toggle expand nav-filter-item' data-hgrid-nav=7></span></span><span class='folder folder-open'></span>&nbsp;Docs</a>" in
  formatter (get docs_collapsed "name") columnDef docs_collapsed = Return out
  /\ Str.includes "<span style='display:inline-block;height:1px;width:18px'></span>" out = true
  /\ Str.includes "<span class='toggle expand nav-filter-item' data-hgrid-nav=7>" out = true
  /\ Str.includes "<span class='folder folder-open'>" out = true
  /\ Str.includes "Docs" out = true.
Proof. repeat apply conj; vm_compute; reflexivity. Qed.

(** C3, as amended.  Whenever the value handed over for the cell is a
    string, the formatter returns a fragment, whatever the record holds and
    lacks.  A record without [type] is rendered as a file; without [ext] it
    gets the generic icon; without [url] its label is plain text. *)
Theorem text_value_returns (v : string) (dc : object) :
  (exists out, formatter (JStr v) columnDef dc = Return out)
  /\ (dc !! "type" = None ->
      formatter (JStr v) columnDef dc
      = Return (spacer StringToNumber dc
                +:+ " <span class='toggle'></span><span class='file' style='background: url("
                +:+ imageUrl dc
                +:+ ") no-repeat left top;'></span>&nbsp;" +:+ link (escape v) dc))
  /\ (dc !! "ext" = None -> imageUrl dc = "/static/img/hgrid/file.png")
  /\ (dc !! "url" = None -> link (escape v) dc = escape v).
Proof.
  split; [| split; [| split]].
  - destruct (formatter_starts_with_spacer v dc) as [rest ->]. now eexists.
  - intros H. apply formatter_file. unfold is_folder. now rewrite (get_missing _ _ H).
  - intros H. rewrite imageUrl_cases. now rewrite (get_missing _ _ H).
  - intros H. unfold link. now rewrite (get_missing _ _ H).
Qed.

(** Where the label sits: in every returned fragment the text shown is
    the escaped value, or the fixed label of a masked folder. *)
Lemma formatter_label (v : string) (dc : object) :
  exists pre post : string,
    formatter (JStr v) columnDef dc
    = Return (pre
              +:+ (if is_folder dc && masked dc then "Private Component" else escape v)
              +:+ post).
Proof.
  pose (head := spacer StringToNumber dc).
  pose (uid := ToString (get dc "uid")).
  destruct (is_folder dc) eqn:Hf; cbn [andb].
  - destruct (ToBoolean (get dc "_collapsed")) eqn:Hc; destruct (masked dc) eqn:Hm.
    + rewrite formatter_collapsed_masked by assumption.
      exists (head +:+ " <span class='toggle nav-filter-item' data-hgrid-nav=" +:+ uid
              +:+ "></span></span><span class='folder folder-delete'></span>&nbsp;"), "</a>".
      now rewrite !StrFacts.app_assoc.
    + rewrite formatter_collapsed_viewable by assumption.
      exists (head +:+ " <span class='toggle expand nav-filter-item' data-hgrid-nav=" +:+ uid
              +:+ "></span></span><span class='folder folder-open'></span>&nbsp;"), "</a>".
      now rewrite !StrFacts.app_assoc.
    + rewrite formatter_expanded_masked by assumption.
      exists (head +:+ " <span class='toggle nav-filter-item' data-hgrid-nav=" +:+ uid
              +:+ "></span><span class='folder folder-delete'></span>&nbsp;"), "</a>".
      now rewrite !StrFacts.app_assoc.
    + rewrite formatter_expanded_viewable by assumption.
      exists (head +:+ " <span class='toggle collapse nav-filter-item' data-hgrid-nav=" +:+ uid
              +:+ "></span><span class='folder folder-close'></span>&nbsp;"), "</a>".
      now rewrite !StrFacts.app_assoc.
  - rewrite formatter_file by assumption. unfold link.
    destruct (ToBoolean (get dc "url")).
    + exists (head +:+ " <span class='toggle'></span><span class='file' style='background: url("
              +:+ imageUrl dc +:+ ") no-repeat left top;'></span>&nbsp;"
              +:+ "<a href=" +:+ ToString (get dc "url") +:+ ">"), "</a>".
      now rewrite !StrFacts.app_assoc.
    + exists (head +:+ " <span class='toggle'></span><span class='file' style='background: url("
              +:+ imageUrl dc +:+ ") no-repeat left top;'></span>&nbsp;"), "".
      now rewrite !StrFacts.app_assoc, StrFacts.app_nil_r.
Qed.

(** C4.  The value is escaped by the three replacements [&] to [&amp;],
    then [<] to [&lt;], then [>] to [&gt;], and it is this escaped text
    that every branch puts out.  The three passes amount to one pass that
    translates each character on its own, so a [<] (or [>]) of the value
    comes out as [&lt;] ([&gt;]) wherever it stands, and never as
    [&amp;lt;] ([&amp;gt;]). *)
Theorem escape_once :
  (forall s, escape s
             = Str.replace ">" "&gt;" (Str.replace "<" "&lt;" (Str.replace "&" "&amp;" s)))
  /\ (forall s, escape s = translate escape_char s)
  /\ (forall a b, escape (a +:+ "<" +:+ b) = escape a +:+ "&lt;" +:+ escape b)
  /\ (forall a b, escape (a +:+ ">" +:+ b) = escape a +:+ "&gt;" +:+ escape b)
  /\ (forall a b, escape (a +:+ "&" +:+ b) = escape a +:+ "&amp;" +:+ escape b)
  /\ escape "<" = "&lt;" /\ escape ">" = "&gt;"
  /\ escape "<" <> "&amp;lt;" /\ escape ">" <> "&amp;gt;"
  /\ (forall v dc, exists pre post : string,
        formatter (JStr v) columnDef dc
        = Return (pre
                  +:+ (if is_folder dc && masked dc then "Private Component" else escape v)
                  +:+ post)).
Proof.
  repeat apply conj; try reflexivity; try discriminate;
    try (intros a b; now rewrite !escape_app).
  - exact escape_translate.
  - exact formatter_label.
Qed.

(** C5.  A record rendered as a file gets its icon by one test: when
    [ext] is, character for character, one of the texts of [extensions], the
    path is the one ending in [file_extension_<ext>.png]; in every other
    case it is the generic [/static/img/hgrid/file.png].  So ["pdf"] has an
    icon of its own, while ["xyz"], the upper-case ["PDF"] and the fragment
    ["pd"] do not. *)
Theorem file_icon_by_extension (v : string) (dc : object) :
  is_folder dc = false ->
  let icon :=
    match get dc "ext" with
    | JStr e =>
        if bool_decide (e ∈ extensions)
        then "/static/img/hgrid/fatcowicons/file_extension_" +:+ e +:+ ".png"
        else "/static/img/hgrid/file.png"
    | _ => "/static/img/hgrid/file.png"
    end in
  formatter (JStr v) columnDef dc
  = Return (spacer StringToNumber dc
            +:+ " <span class='toggle'></span><span class='file' style='background: url("
            +:+ icon
            +:+ ") no-repeat left top;'></span>&nbsp;" +:+ link (escape v) dc)
  /\ bool_decide ("pdf" ∈ extensions) = true
  /\ bool_decide ("xyz" ∈ extensions) = false
  /\ bool_decide ("PDF" ∈ extensions) = false
  /\ bool_decide ("pd" ∈ extensions) = false.
Proof.
  intros Hf icon. split; [| repeat apply conj; vm_compute; reflexivity].
  rewrite formatter_file by assumption. unfold icon. now rewrite imageUrl_cases.
Qed.

Lemma imageUrl_from_table (dc : object) :
  imageUrl dc = "/static/img/hgrid/file.png"
  \/ exists e : string,
       e ∈ extensions /\ get dc "ext" = JStr e
       /\ imageUrl dc = "/static/img/hgrid/fatcowicons/file_extension_" +:+ e +:+ ".png".
Proof.
  rewrite imageUrl_cases. destruct (get dc "ext") as [| | b | n | e]; auto.
  destruct (bool_decide (e ∈ extensions)) eqn:E; auto.
  right. exists e. apply bool_decide_eq_true in E. auto.
Qed.

Lemma imageUrl_path_chars (dc : object) : Str.all path_char (imageUrl dc) = true.
Proof.
  destruct (imageUrl_from_table dc) as [-> | (e & He & _ & ->)]; [reflexivity |].
  rewrite !StrFacts.all_app, (extensions_path_chars e He). reflexivity.
Qed.

Lemma spacer_free_lt (dc : object) :
  Str.free "<" (number_to_string (mul (Int 18) (ToNumber StringToNumber (get dc "indent"))))
  = true.
Proof. now apply number_to_string_free. Qed.

(** A file row without link holds no anchor tag, opening or closing. *)
Lemma file_plain_no_anchor (v : string) (dc : object) :
  let out := (spacer StringToNumber dc
              +:+ " <span class='toggle'></span><span class='file' style='background: url("
              +:+ imageUrl dc +:+ ") no-repeat left top;'></span>&nbsp;") +:+ escape v in
  Str.includes "<a" out = false /\ Str.includes "</a" out = false.
Proof.
  intros out. subst out. unfold spacer.
  pose proof (spacer_free_lt dc) as HN.
  pose proof (StrFacts.all_free path_char "<" _ eq_refl (imageUrl_path_chars dc)) as HU.
  pose proof (escape_free_lt v) as HE.
  revert HN HU HE.
  generalize (number_to_string (mul (Int 18) (ToNumber StringToNumber (get dc "indent")))).
  generalize (imageUrl dc). generalize (escape v). intros E U N HN HU HE.
  rewrite !StrFacts.app_assoc.
  split; simpl;
    rewrite (StrFacts.includes_skip _ _ _ _ HN); simpl;
    rewrite (StrFacts.includes_skip _ _ _ _ HU); simpl;
    now apply StrFacts.includes_free.
Qed.

(** C6.  For a record rendered as a file the label is decided by [url]
    alone.  Without [url] the fragment ends in the escaped label as plain
    text and holds no anchor tag at all; with a [url] such as
    ["http://x"] the escaped label is wrapped as [<a href=url>label</a>].
    The formatter tests [url] as a condition, so a [url] that is there but
    empty, [null], [0] or [false] is treated like a missing one. *)
Theorem file_label_link (v : string) (dc : object) :
  is_folder dc = false ->
  let head :=
    spacer StringToNumber dc
    +:+ " <span class='toggle'></span><span class='file' style='background: url("
    +:+ imageUrl dc +:+ ") no-repeat left top;'></span>&nbsp;" in
  let plain :=
    formatter (JStr v) columnDef dc = Return (head +:+ escape v)
    /\ Str.includes "<a" (head +:+ escape v) = false
    /\ Str.includes "</a" (head +:+ escape v) = false in
  match dc !! "url" with
  | None => plain
  | Some url =>
      if ToBoolean url
      then formatter (JStr v) columnDef dc
           = Return (head +:+ "<a href=" +:+ ToString url +:+ ">" +:+ escape v +:+ "</a>")
      else plain
  end.
Proof.
  intros Hf head plain.
  assert (Hplain : ToBoolean (get dc "url") = false -> plain).
  { intros Hu. split; [| apply file_plain_no_anchor].
    rewrite formatter_file by assumption. unfold link. rewrite Hu.
    subst head. now rewrite !StrFacts.app_assoc. }
  destruct (dc !! "url") as [url |] eqn:Hurl.
  - rewrite (get_present _ _ _ Hurl) in Hplain.
    destruct (ToBoolean url) eqn:Hu; [| now apply Hplain].
    rewrite formatter_file by assumption. unfold link.
    rewrite (get_present _ _ _ Hurl), Hu. subst head. now rewrite !StrFacts.app_assoc.
  - rewrite (get_missing _ _ Hurl) in Hplain. now apply Hplain.
Qed.

(** C7.  When [indent] is a whole number, not negative and small enough
    for [18 * indent] to be a safe integer, the fragment starts with the
    spacer whose width is the decimal numeral of [18 * indent], in [px]. *)
Theorem spacer_width (v : string) (dc : object) (indent : Z) :
  get dc "indent" = JNum (Int indent) ->
  0 <= indent ->
  18 * indent <= max_safe ->
  exists rest : string,
    formatter (JStr v) columnDef dc
    = Return ("<span style='display:inline-block;height:1px;width:"
              +:+ decimal (18 * indent) +:+ "px'></span>" +:+ rest).
Proof.
  intros Hi _ _. destruct (formatter_starts_with_spacer v dc) as [rest ->].
  exists rest. unfold spacer. rewrite Hi. cbn [ToNumber mul number_to_string].
  now rewrite !StrFacts.app_assoc.
Qed.

(** C8.  A collapsed, viewable folder is rendered with the expand toggle
    carrying its uid, the [folder-open] icon and the escaped label, and the
    label is followed by a closing anchor tag that nothing opens: the label
    comes right after the icon's [&nbsp;], and as long as the uid itself
    holds no [<], the whole fragment has no [<a]. *)
Theorem collapsed_folder_anchor_unopened (v : string) (dc : object) :
  is_folder dc = true ->
  ToBoolean (get dc "_collapsed") = true ->
  masked dc = false ->
  let out :=
    spacer StringToNumber dc
    +:+ " <span class='toggle expand nav-filter-item' data-hgrid-nav="
    +:+ ToString (get dc "uid")
    +:+ "></span></span><span class='folder folder-open'></span>&nbsp;"
    +:+ escape v +:+ "</a>" in
  formatter (JStr v) columnDef dc = Return out
  /\ (Str.free "<" (ToString (get dc "uid")) = true -> Str.includes "<a" out = false).
Proof.
  intros Hf Hc Hm out. split; [now apply formatter_collapsed_viewable |].
  subst out. unfold spacer.
  pose proof (spacer_free_lt dc) as HN. pose proof (escape_free_lt v) as HE.
  revert HN HE.
  generalize (number_to_string (mul (Int 18) (ToNumber StringToNumber (get dc "indent")))).
  generalize (ToString (get dc "uid")). generalize (escape v). intros E U N HN HE HU.
  rewrite !StrFacts.app_assoc. simpl.
  rewrite (StrFacts.includes_skip _ _ _ _ HN); simpl.
  rewrite (StrFacts.includes_skip _ _ _ _ HU); simpl.
  now rewrite (StrFacts.includes_skip _ _ _ _ HE).
Qed.

(** C9.  In the fragment of a record rendered as a file, the icon is
    addressed by [imageUrl], which is either the generic
    [/static/img/hgrid/file.png] or the path built around an [ext] that is
    one of the texts of [extensions].  An [ext] outside the table never
    reaches the fragment through the icon path, which therefore consists of
    lower-case letters, digits, [_], [/] and [.] only. *)
Theorem icon_url_from_table (v : string) (dc : object) :
  is_folder dc = false ->
  formatter (JStr v) columnDef dc
  = Return (spacer StringToNumber dc
            +:+ " <span class='toggle'></span><span class='file' style='background: url("
            +:+ imageUrl dc
            +:+ ") no-repeat left top;'></span>&nbsp;" +:+ link (escape v) dc)
  /\ (imageUrl dc = "/static/img/hgrid/file.png"
      \/ exists e : string,
           e ∈ extensions /\ get dc "ext" = JStr e
           /\ imageUrl dc
              = "/static/img/hgrid/fatcowicons/file_extension_" +:+ e +:+ ".png")
  /\ Str.all path_char (imageUrl dc) = true.
Proof.
  intros Hf. split; [now apply formatter_file |].
  split; [apply imageUrl_from_table | apply imageUrl_path_chars].
Qed.

(** Every folder row carries the uid in its toggle. *)
Lemma formatter_folder_nav (v : string) (dc : object) :
  is_folder dc = true ->
  exists pre post : string,
    formatter (JStr v) columnDef dc
    = Return (pre +:+ ("data-hgrid-nav=" +:+ ToString (get dc "uid") +:+ ">") +:+ post).
Proof.
  intros Hf.
  pose (head := spacer StringToNumber dc).
  destruct (ToBoolean (get dc "_collapsed")) eqn:Hc; destruct (masked dc) eqn:Hm.
  - rewrite formatter_collapsed_masked by assumption.
    exists (head +:+ " <span class='toggle nav-filter-item' "),
      "</span></span><span class='folder folder-delete'></span>&nbsp;Private Component</a>".
    now rewrite !StrFacts.app_assoc.
  - rewrite formatter_collapsed_viewable by assumption.
    exists (head +:+ " <span class='toggle expand nav-filter-item' "),
      ("</span></span><span class='folder folder-open'></span>&nbsp;" +:+ escape v +:+ "</a>").
    now rewrite !StrFacts.app_assoc.
  - rewrite formatter_expanded_masked by assumption.
    exists (head +:+ " <span class='toggle nav-filter-item' "),
      "</span><span class='folder folder-delete'></span>&nbsp;Private Component</a>".
    now rewrite !StrFacts.app_assoc.
  - rewrite formatter_expanded_viewable by assumption.
    exists (head +:+ " <span class='toggle collapse nav-filter-item' "),
      ("</span><span class='folder folder-close'></span>&nbsp;" +:+ escape v +:+ "</a>").
    now rewrite !StrFacts.app_assoc.
Qed.

(** C10.  The fragment of every folder record holds
    [data-hgrid-nav=<uid>] with the uid as [+] renders it (a text uid
    unchanged), and that also when the folder is masked and its label reads
    "Private Component". *)
Theorem folder_uid_in_nav (v : string) (dc : object) :
  is_folder dc = true ->
  exists out : string,
    formatter (JStr v) columnDef dc = Return out
    /\ Str.includes ("data-hgrid-nav=" +:+ ToString (get dc "uid") +:+ ">") out = true
    /\ Str.includes (if masked dc then "Private Component" else escape v) out = true
    /\ forall u : string, get dc "uid" = JStr u -> ToString (get dc "uid") = u.
Proof.
  intros Hf.
  destruct (formatter_folder_nav v dc Hf) as (pre & post & Hnav).
  destruct (formatter_label v dc) as (pre' & post' & Hlabel).
  rewrite Hf in Hlabel; cbn [andb] in Hlabel.
  eexists. split; [exact Hnav |]. split; [apply StrFacts.includes_intro |]. split.
  - rewrite Hnav in Hlabel. apply Return_inj in Hlabel. rewrite Hlabel.
    apply StrFacts.includes_intro.
  - now intros u ->.
Qed.

End Claims.

(** ** The claims on the sample records *)

(** C1 as stated fails: the masked folder named "span" is rendered without
    its name being used, and still the name occurs in the fragment, inside
    the markup. *)
Lemma masked_folder_name_occurs :
  let out :=
    "<span style='display:inline-block;height:1px;width:0px'></span> <span class='toggle nav-filter-item' data-hgrid-nav=3></span></span><span class='folder folder-delete'></span>&nbsp;Private Component</a>" in
  get masked_span "type" = JStr "folder"
  /\ get masked_span "can_view" = JStr "false"
  /\ get masked_span "name" = JStr "span"
  /\ TaskNameFormatter text_as_NaN 0 0 (get masked_span "name") name_column masked_span
     = Return out
  /\ Str.includes "span" out = true.
Proof. repeat apply conj; vm_compute; reflexivity. Qed.

Lemma masked_folder_ignores_name_witness :
  TaskNameFormatter text_as_NaN 0 0 (JStr "secret") name_column
    (<["name" := JStr "secret"]> masked_folder)
  = Return "<span style='display:inline-block;height:1px;width:36px'></span> <span class='toggle nav-filter-item' data-hgrid-nav=n42></span><span class='folder folder-delete'></span>&nbsp;Private Component</a>".
Proof.
  apply (masked_folder_ignores_name text_as_NaN 0 0 name_column
           "secret" (JStr "secret") masked_folder); reflexivity.
Defined.

(** A [can_view] that is the boolean [false] is not the text ["false"]: the
    folder is rendered with its name. *)
Example boolean_false_is_viewable :
  TaskNameFormatter text_as_NaN 0 0 (JStr "Docs") name_column
    (<["can_view" := JBool false]> docs_collapsed)
  = TaskNameFormatter text_as_NaN 0 0 (JStr "Docs") name_column docs_collapsed.
Proof. vm_compute. reflexivity. Qed.

(** C2 as stated fails: the formatter reads [_collapsed], so the record
    with [collapsed:true] is rendered as an expanded folder, with the collapse
    toggle and the [folder-close] icon. *)
Lemma docs_flagged_collapsed_renders_expanded :
  let out :=
    "<span style='display:inline-block;height:1px;width:18px'></span> <span class='toggle collapse nav-filter-item' data-hgrid-nav=7></span><span class='folder folder-close'></span>&nbsp;Docs</a>" in
  TaskNameFormatter text_as_NaN 0 0 (get docs_flagged_collapsed "name") name_column
    docs_flagged_collapsed
  = Return out
  /\ Str.includes "expand" out = false
  /\ Str.includes "folder-open" out = false.
Proof. repeat apply conj; vm_compute; reflexivity. Qed.

(** C3 as stated fails: for a record without [name] the grid hands over
    [undefined], and the first statement raises. *)
Lemma unnamed_file_throws :
  get unnamed_file "name" = JUndefined
  /\ TaskNameFormatter text_as_NaN 0 0 (get unnamed_file "name") name_column unnamed_file
     = Throw TypeError.
Proof. split; vm_compute; reflexivity. Qed.

Lemma text_value_returns_witness :
  TaskNameFormatter text_as_NaN 0 0 (get bare_row "name") name_column bare_row
  = Return "<span style='display:inline-block;height:1px;width:0px'></span> <span class='toggle'></span><span class='file' style='background: url(/static/img/hgrid/file.png) no-repeat left top;'></span>&nbsp;README".
Proof.
  destruct (text_value_returns text_as_NaN 0 0 name_column "README" bare_row)
    as (_ & Hfile & Hicon & Hlink).
  change (get bare_row "name") with (JStr "README").
  rewrite (Hfile eq_refl), (Hicon eq_refl), (Hlink eq_refl). reflexivity.
Defined.

Lemma file_icon_by_extension_witness :
  TaskNameFormatter text_as_NaN 0 0 (JStr "a&b.pdf") name_column linked_pdf
  = Return "<span style='display:inline-block;height:1px;width:36px'></span> <span class='toggle'></span><span class='file' style='background: url(/static/img/hgrid/fatcowicons/file_extension_pdf.png) no-repeat left top;'></span>&nbsp;<a href=http://x>a&amp;b.pdf</a>".
Proof.
  apply (file_icon_by_extension text_as_NaN 0 0 name_column "a&b.pdf" linked_pdf).
  reflexivity.
Defined.

Lemma file_label_link_witness :
  TaskNameFormatter text_as_NaN 0 0 (JStr "a&b.pdf") name_column linked_pdf
  = Return "<span style='display:inline-block;height:1px;width:36px'></span> <span class='toggle'></span><span class='file' style='background: url(/static/img/hgrid/fatcowicons/file_extension_pdf.png) no-repeat left top;'></span>&nbsp;<a href=http://x>a&amp;b.pdf</a>"
  /\ TaskNameFormatter text_as_NaN 0 0 (JStr "notes.xyz") name_column plain_xyz
     = Return "<span style='display:inline-block;height:1px;width:36px'></span> <span class='toggle'></span><span class='file' style='background: url(/static/img/hgrid/file.png) no-repeat left top;'></span>&nbsp;notes.xyz".
Proof.
  split.
  - apply (file_label_link text_as_NaN 0 0 name_column "a&b.pdf" linked_pdf).
    reflexivity.
  - apply (file_label_link text_as_NaN 0 0 name_column "notes.xyz" plain_xyz).
    reflexivity.
Defined.

Lemma spacer_width_witness :
  exists rest : string,
    TaskNameFormatter text_as_NaN 0 0 (JStr "Docs") name_column docs_collapsed
    = Return ("<span style='display:inline-block;height:1px;width:18px'></span>" +:+ rest).
Proof.
  apply (spacer_width text_as_NaN 0 0 name_column "Docs" docs_collapsed 1).
  - reflexivity.
  - lia.
  - unfold max_safe. lia.
Defined.

Lemma collapsed_folder_anchor_unopened_witness :
  let out :=
    "<span style='display:inline-block;height:1px;width:18px'></span> <span class='toggle expand nav-filter-item' data-hgrid-nav=7></span></span><span class='folder folder-open'></span>&nbsp;Docs</a>" in
  TaskNameFormatter text_as_NaN 0 0 (JStr "Docs") name_column docs_collapsed = Return out
  /\ Str.includes "<a" out = false.
Proof.
  destruct (collapsed_folder_anchor_unopened text_as_NaN 0 0 name_column "Docs" docs_collapsed)
    as [Hout Hno]; try reflexivity.
  split; [exact Hout | exact (Hno eq_refl)].
Defined.

Lemma icon_url_from_table_witness :
  TaskNameFormatter text_as_NaN 0 0 (JStr "notes.xyz") name_column plain_xyz
  = Return "<span style='display:inline-block;height:1px;width:36px'></span> <span class='toggle'></span><span class='file' style='background: url(/static/img/hgrid/file.png) no-repeat left top;'></span>&nbsp;notes.xyz"
  /\ Str.all path_char (imageUrl plain_xyz) = true.
Proof.
  destruct (icon_url_from_table text_as_NaN 0 0 name_column "notes.xyz" plain_xyz)
    as (Hout & _ & Hchars); [reflexivity |].
  split; [exact Hout | exact Hchars].
Defined.

Lemma folder_uid_in_nav_witness :
  exists out : string,
    TaskNameFormatter text_as_NaN 0 0 (JStr "span") name_column masked_span = Return out
    /\ Str.includes "data-hgrid-nav=3>" out = true
    /\ Str.includes "Private Component" out = true.
Proof.
  destruct (folder_uid_in_nav text_as_NaN 0 0 name_column "span" masked_span)
    as (out & Hout & Hnav & Hlabel & _); [reflexivity |].
  exists out. repeat apply conj; assumption.
Defined.


(** * Further properties of the formatter *)

(** ** Counting characters *)

Lemma count_char_app (c : ascii) (a b : string) :
  count_char c (a +:+ b) = (count_char c a + count_char c b)%nat.
Proof.
  induction a as [|x a IH]; simpl; [reflexivity |]. rewrite IH. lia.
Qed.

Lemma count_char_free (c : ascii) (s : string) :
  count_char c s = O <-> Str.free c s = true.
Proof.
  induction s as [|x s IH]; simpl; [tauto |].
  destruct (Ascii.eqb x c); simpl.
  - split; [lia | discriminate].
  - exact IH.
Qed.

Lemma length_app (a b : string) :
  String.length (a +:+ b) = (String.length a + String.length b)%nat.
Proof.
  induction a as [|x a IH]; simpl; [reflexivity |]. now rewrite IH.
Qed.

Lemma escape_char_cases (c : ascii) :
  (c = "&"%char /\ escape_char c = "&amp;")
  \/ (c = "<"%char /\ escape_char c = "&lt;")
  \/ (c = ">"%char /\ escape_char c = "&gt;")
  \/ (c <> "&"%char /\ c <> "<"%char /\ c <> ">"%char /\ escape_char c = String c "").
Proof.
  unfold escape_char.
  destruct (Ascii.eqb_spec c "&") as [->|Hamp]; [now left |].
  destruct (Ascii.eqb_spec c "<") as [->|Hlt]; [now right; left |].
  destruct (Ascii.eqb_spec c ">") as [->|Hgt]; [now right; right; left |].
  now right; right; right.
Qed.

(** ** More about escaping *)

Lemma count_amp_escape (s : string) :
  count_char "&" (escape s)
  = (count_char "&" s + count_char "<" s + count_char ">" s)%nat.
Proof.
  induction s as [|c s IH]; [reflexivity |].
  rewrite escape_cons, count_char_app, IH.
  destruct (escape_char_cases c) as [[-> ->] | [[-> ->] | [[-> ->] | (Ha & Hl & Hg & ->)]]];
    simpl; try lia.
  rewrite (proj2 (Ascii.eqb_neq _ _) Ha), (proj2 (Ascii.eqb_neq _ _) Hl),
    (proj2 (Ascii.eqb_neq _ _) Hg). lia.
Qed.

(** X1.  Whatever the value, its escaped form holds no [<] and no [>], and
    each [&] in it starts one of [&amp;], [&lt;], [&gt;]: the label cannot
    open or close a tag, nor smuggle in another entity. *)
Theorem escape_no_markup (s : string) :
  Str.free "<" (escape s) = true
  /\ Str.free ">" (escape s) = true
  /\ entities_only (escape s) = true.
Proof.
  split; [apply escape_free_lt |]. split; [apply escape_free_gt |].
  induction s as [|c s IH]; [reflexivity |].
  rewrite escape_cons.
  assert (empty_prefix : forall x, String.prefix "" x = true) by now intros [|].
  destruct (escape_char_cases c) as [[-> ->] | [[-> ->] | [[-> ->] | (Ha & Hl & Hg & ->)]]];
    simpl; rewrite ?empty_prefix; try exact IH.
  now rewrite (proj2 (Ascii.eqb_neq _ _) Ha).
Qed.

Lemma escape_char_app_inj (c d : ascii) (x y : string) :
  escape_char c +:+ x = escape_char d +:+ y -> c = d /\ x = y.
Proof.
  destruct (escape_char_cases c) as [[-> ->] | [[-> ->] | [[-> ->] | (Ha & Hl & Hg & ->)]]];
  destruct (escape_char_cases d) as [[-> ->] | [[-> ->] | [[-> ->] | (Ha' & Hl' & Hg' & ->)]]];
    simpl; intros H; try discriminate H; try (injection H as H; now subst);
    injection H as H1 H2; congruence.
Qed.

Lemma escape_inj (s t : string) : escape s = escape t -> s = t.
Proof.
  revert t; induction s as [|c s IH]; intros [|d t] H.
  - reflexivity.
  - rewrite escape_cons in H. change (escape "") with ("" : string) in H.
    destruct (escape_char_cases d) as [[_ E] | [[_ E] | [[_ E] | (_ & _ & _ & E)]]];
      rewrite E in H; discriminate H.
  - rewrite escape_cons in H. change (escape "") with ("" : string) in H.
    destruct (escape_char_cases c) as [[_ E] | [[_ E] | [[_ E] | (_ & _ & _ & E)]]];
      rewrite E in H; discriminate H.
  - rewrite !escape_cons in H. apply escape_char_app_inj in H as [-> H].
    f_equal. now apply IH.
Qed.

(** X2.  Escaping loses nothing: two different values have different
    escaped forms, so distinct names never share a label (the name [<] and
    the name [&lt;] for instance). *)
Theorem distinct_values_distinct_labels (s t : string) :
  s <> t -> escape s <> escape t.
Proof. intros Hne E. apply Hne. now apply escape_inj. Qed.

(** X4.  Escaping lengthens the text by four characters for each [&] and by
    three for each [<] and each [>], and by nothing else. *)
Theorem escape_length (s : string) :
  String.length (escape s)
  = (String.length s
     + 4 * count_char "&" s + 3 * count_char "<" s + 3 * count_char ">" s)%nat.
Proof.
  induction s as [|c s IH]; [reflexivity |].
  rewrite escape_cons, length_app, IH.
  destruct (escape_char_cases c) as [[-> ->] | [[-> ->] | [[-> ->] | (Ha & Hl & Hg & ->)]]];
    simpl; try lia.
  rewrite (proj2 (Ascii.eqb_neq _ _) Ha), (proj2 (Ascii.eqb_neq _ _) Hl),
    (proj2 (Ascii.eqb_neq _ _) Hg). simpl. lia.
Qed.

Lemma plain_counts (s : string) :
  plain s = true
  <-> (count_char "&" s + count_char "<" s + count_char ">" s)%nat = O.
Proof.
  unfold plain. rewrite !andb_true_iff, <- !count_char_free. lia.
Qed.

Lemma escape_plain (s : string) : plain s = true -> escape s = s.
Proof.
  induction s as [|c s IH]; [reflexivity |].
  unfold plain; simpl. rewrite !andb_true_iff, !negb_true_iff.
  intros [[[Ha Sa] [Hl Sl]] [Hg Sg]].
  rewrite escape_cons, IH by (unfold plain; now rewrite Sa, Sl, Sg).
  unfold escape_char. now rewrite Ha, Hl, Hg.
Qed.

(** X3.  A value comes through unchanged exactly when it holds none of
    [&], [<], [>]; and only for such values does escaping a second time
    change nothing: any other value is encoded once more. *)
Theorem escape_fixed_iff_plain (s : string) :
  (escape s = s <-> plain s = true)
  /\ (escape (escape s) = escape s <-> plain s = true).
Proof.
  assert (fixed : forall t, escape t = t <-> plain t = true).
  { intros t. split; [| apply escape_plain].
    intros E. apply plain_counts.
    pose proof (escape_length t) as L. rewrite E in L. lia. }
  split; [apply fixed |].
  rewrite fixed. rewrite !plain_counts, count_amp_escape.
  pose proof (escape_free_lt s) as Hl. pose proof (escape_free_gt s) as Hg.
  apply count_char_free in Hl, Hg. rewrite Hl, Hg. lia.
Qed.

(** ** More about the rows *)

Lemma get_delete_ne (o : object) (k k' : string) :
  k <> k' -> get (delete k o) k' = get o k'.
Proof. intros H. unfold get. now rewrite lookup_delete_ne. Qed.

Lemma decimal_negative (z : Z) : z < 0 -> decimal z = "-" +:+ decimal (- z).
Proof. destruct z as [| p | p]; try lia. intros _. reflexivity. Qed.

(* [H : k ∈ [a; b; ...]] with [k] a literal outside the list. *)
Ltac not_among H :=
  repeat (apply elem_of_cons in H as [H | H]; [discriminate H |]);
  now apply elem_of_nil in H.

Section Rows.

Variable StringToNumber : string -> number.
Variables (row cell : Z) (columnDef : object).

Local Abbreviation formatter := (TaskNameFormatter StringToNumber row cell).

(** The fragment depends on the record through these reads only. *)
Lemma formatter_same_reads (value : jsval) (dc dc' : object) :
  (forall k, k ∈ read_properties -> get dc' k = get dc k) ->
  formatter value columnDef dc' = formatter value columnDef dc.
Proof.
  intros H. unfold TaskNameFormatter, spacer, link, imageUrl.
  rewrite (H "indent"), (H "type"), (H "_collapsed"), (H "can_view"), (H "uid"),
    (H "url"), (H "ext") by (unfold read_properties; repeat constructor).
  reflexivity.
Qed.

(** X5.  The formatter reads the properties [indent], [type],
    [_collapsed], [can_view], [uid], [url] and [ext] of the record and
    nothing else: adding, changing or removing any other property, such as
    [name] or [collapsed], leaves the outcome as it is. *)
Theorem formatter_reads_only (value x : jsval) (k : string) (dc : object) :
  k ∉ read_properties ->
  formatter value columnDef (<[k := x]> dc) = formatter value columnDef dc
  /\ formatter value columnDef (delete k dc) = formatter value columnDef dc.
Proof.
  intros Hk. split; apply formatter_same_reads; intros k' Hk'.
  - apply get_insert_ne. congruence.
  - apply get_delete_ne. congruence.
Qed.

(** X6.  For a record rendered as a file, [uid], [_collapsed] and
    [can_view] play no part: whatever they are set to, the outcome is the
    same. *)
Theorem file_row_ignores_folder_state (value x : jsval) (k : string) (dc : object) :
  is_folder dc = false ->
  k ∈ ["uid"; "_collapsed"; "can_view"] ->
  formatter value columnDef (<[k := x]> dc) = formatter value columnDef dc.
Proof.
  intros Hf Hk. unfold is_folder in Hf.
  unfold TaskNameFormatter, spacer, link, imageUrl.
  rewrite (get_insert_ne dc k "indent"), (get_insert_ne dc k "type"),
    (get_insert_ne dc k "url"), (get_insert_ne dc k "ext")
    by (intros ->; not_among Hk).
  now rewrite Hf.
Qed.

(** X7.  For a folder record, [url] and [ext] play no part: a folder is
    never linked and never gets a file icon. *)
Theorem folder_row_ignores_file_data (value x : jsval) (k : string) (dc : object) :
  is_folder dc = true ->
  k ∈ ["url"; "ext"] ->
  formatter value columnDef (<[k := x]> dc) = formatter value columnDef dc.
Proof.
  intros Hf Hk. unfold is_folder in Hf.
  unfold TaskNameFormatter, spacer.
  rewrite (get_insert_ne dc k "indent"), (get_insert_ne dc k "type"),
    (get_insert_ne dc k "_collapsed"), (get_insert_ne dc k "can_view"),
    (get_insert_ne dc k "uid")
    by (intros ->; not_among Hk).
  now rewrite Hf.
Qed.


(** X9.  A record without [indent] (or with an [indent] that is
    [undefined]) is still rendered: the width of its spacer reads [NaNpx]. *)
Theorem missing_indent_width (v : string) (dc : object) :
  get dc "indent" = JUndefined ->
  exists rest : string,
    formatter (JStr v) columnDef dc
    = Return ("<span style='display:inline-block;height:1px;width:NaNpx'></span>" +:+ rest).
Proof.
  intros Hi. destruct (formatter_starts_with_spacer StringToNumber row cell columnDef v dc)
    as [rest ->].
  exists rest. unfold spacer. rewrite Hi. reflexivity.
Qed.

(** X10.  The depth is not clamped: a negative whole [indent], with
    [18 * indent] a safe integer, gives a spacer of negative width, the
    minus sign followed by the numeral of [18 * -indent]. *)
Theorem negative_indent_width (v : string) (dc : object) (indent : Z) :
  get dc "indent" = JNum (Int indent) ->
  indent < 0 ->
  - max_safe <= 18 * indent ->
  exists rest : string,
    formatter (JStr v) columnDef dc
    = Return ("<span style='display:inline-block;height:1px;width:-"
              +:+ decimal (18 * - indent) +:+ "px'></span>" +:+ rest).
Proof.
  intros Hi Hneg _.
  destruct (formatter_starts_with_spacer StringToNumber row cell columnDef v dc)
    as [rest ->].
  exists rest. unfold spacer. rewrite Hi. cbn [ToNumber mul number_to_string].
  rewrite decimal_negative by lia. replace (- (18 * indent)) with (18 * - indent) by lia.
  now rewrite !StrFacts.app_assoc.
Qed.

(** The label is the only place where the value enters the fragment. *)
Lemma formatter_label_frame (dc : object) :
  exists pre post : string, forall v : string,
    formatter (JStr v) columnDef dc
    = Return (pre
              +:+ (if is_folder dc && masked dc then "Private Component" else escape v)
              +:+ post).
Proof.
  pose (head := spacer StringToNumber dc).
  pose (uid := ToString (get dc "uid")).
  destruct (is_folder dc) eqn:Hf; cbn [andb].
  - destruct (ToBoolean (get dc "_collapsed")) eqn:Hc; destruct (masked dc) eqn:Hm.
    + exists (head +:+ " <span class='toggle nav-filter-item' data-hgrid-nav=" +:+ uid
              +:+ "></span></span><span class='folder folder-delete'></span>&nbsp;"), "</a>".
      intros v. rewrite formatter_collapsed_masked by assumption.
      now rewrite !StrFacts.app_assoc.
    + exists (head +:+ " <span class='toggle expand nav-filter-item' data-hgrid-nav=" +:+ uid
              +:+ "></span></span><span class='folder folder-open'></span>&nbsp;"), "</a>".
      intros v. rewrite formatter_collapsed_viewable by assumption.
      now rewrite !StrFacts.app_assoc.
    + exists (head +:+ " <span class='toggle nav-filter-item' data-hgrid-nav=" +:+ uid
              +:+ "></span><span class='folder folder-delete'></span>&nbsp;"), "</a>".
      intros v. rewrite formatter_expanded_masked by assumption.
      now rewrite !StrFacts.app_assoc.
    + exists (head +:+ " <span class='toggle collapse nav-filter-item' data-hgrid-nav=" +:+ uid
              +:+ "></span><span class='folder folder-close'></span>&nbsp;"), "</a>".
      intros v. rewrite formatter_expanded_viewable by assumption.
      now rewrite !StrFacts.app_assoc.
  - destruct (ToBoolean (get dc "url")) eqn:Hu.
    + exists (head +:+ " <span class='toggle'></span><span class='file' style='background: url("
              +:+ imageUrl dc +:+ ") no-repeat left top;'></span>&nbsp;"
              +:+ "<a href=" +:+ ToString (get dc "url") +:+ ">"), "</a>".
      intros v. rewrite formatter_file by assumption. unfold link. rewrite Hu.
      now rewrite !StrFacts.app_assoc.
    + exists (head +:+ " <span class='toggle'></span><span class='file' style='background: url("
              +:+ imageUrl dc +:+ ") no-repeat left top;'></span>&nbsp;"), "".
      intros v. rewrite formatter_file by assumption. unfold link. rewrite Hu.
      now rewrite !StrFacts.app_assoc, StrFacts.app_nil_r.
Qed.

(** X11.  The value adds no angle bracket to the fragment: for each record
    the numbers of [<] and of [>] in the returned fragment are the same for
    every value, so no name can add a tag to the row or end one early. *)
Theorem value_adds_no_angle_brackets (dc : object) :
  exists n m : nat, forall v : string, exists out : string,
    formatter (JStr v) columnDef dc = Return out
    /\ count_char "<" out = n /\ count_char ">" out = m.
Proof.
  destruct (formatter_label_frame dc) as (pre & post & Hshape).
  exists (count_char "<" pre + count_char "<" post)%nat,
         (count_char ">" pre + count_char ">" post)%nat.
  intros v. eexists. split; [apply Hshape |].
  rewrite !count_char_app.
  assert (Hl : count_char "<" (if is_folder dc && masked dc
                               then "Private Component" else escape v) = O).
  { destruct (is_folder dc && masked dc); [reflexivity |].
    apply count_char_free, escape_free_lt. }
  assert (Hg : count_char ">" (if is_folder dc && masked dc
                               then "Private Component" else escape v) = O).
  { destruct (is_folder dc && masked dc); [reflexivity |].
    apply count_char_free, escape_free_gt. }
  rewrite Hl, Hg. split; lia.
Qed.

(** X12.  Every [<] of a fragment beyond those of the fixed markup comes
    from the uid (folder rows) or from the url (linked file rows), which are
    put out as they are: a folder row has 8 of them when collapsed and 7
    otherwise, a file row 6, or 8 when linked, plus those of the uid or url
    text. *)
Theorem angle_brackets_from_uid_and_url (v : string) (dc : object) :
  exists out : string,
    formatter (JStr v) columnDef dc = Return out
    /\ count_char "<" out
       = if is_folder dc
         then ((if ToBoolean (get dc "_collapsed") then 8 else 7)
               + count_char "<" (ToString (get dc "uid")))%nat
         else if ToBoolean (get dc "url")
              then (8 + count_char "<" (ToString (get dc "url")))%nat
              else 6%nat.
Proof.
  pose proof (proj2 (count_char_free _ _) (spacer_free_lt StringToNumber dc)) as HN.
  pose proof (proj2 (count_char_free _ _) (escape_free_lt v)) as HE.
  pose proof (proj2 (count_char_free _ _)
                (StrFacts.all_free path_char "<" _ eq_refl (imageUrl_path_chars dc))) as HU.
  destruct (is_folder dc) eqn:Hf.
  - destruct (ToBoolean (get dc "_collapsed")) eqn:Hc; destruct (masked dc) eqn:Hm;
      eexists; (split; [first [ now apply formatter_collapsed_masked
                              | now apply formatter_collapsed_viewable
                              | now apply formatter_expanded_masked
                              | now apply formatter_expanded_viewable ] |]);
      unfold spacer; rewrite !count_char_app, ?HN, ?HE; simpl; lia.
  - eexists. split; [now apply formatter_file |].
    unfold spacer, link. destruct (ToBoolean (get dc "url"));
      rewrite !count_char_app, ?HN, ?HE, ?HU; simpl; lia.
Qed.

End Rows.

(** ** The further properties on the sample records *)

Lemma distinct_values_distinct_labels_witness : escape "<" <> escape "&lt;".
Proof. apply (distinct_values_distinct_labels "<" "&lt;"). discriminate. Defined.

Lemma formatter_reads_only_witness :
  TaskNameFormatter text_as_NaN 0 0 (JStr "Docs") name_column
    (<["collapsed" := JBool true]> docs_collapsed)
  = TaskNameFormatter text_as_NaN 0 0 (JStr "Docs") name_column docs_collapsed
  /\ TaskNameFormatter text_as_NaN 0 0 (JStr "Docs") name_column
       (delete "collapsed" docs_collapsed)
     = TaskNameFormatter text_as_NaN 0 0 (JStr "Docs") name_column docs_collapsed.
Proof.
  apply (formatter_reads_only text_as_NaN 0 0 name_column
           (JStr "Docs") (JBool true) "collapsed" docs_collapsed).
  intros H. not_among H.
Defined.

Lemma file_row_ignores_folder_state_witness :
  TaskNameFormatter text_as_NaN 0 0 (JStr "notes.xyz") name_column
    (<["can_view" := JStr "false"]> plain_xyz)
  = TaskNameFormatter text_as_NaN 0 0 (JStr "notes.xyz") name_column plain_xyz.
Proof.
  apply (file_row_ignores_folder_state text_as_NaN 0 0 name_column
           (JStr "notes.xyz") (JStr "false") "can_view" plain_xyz).
  - reflexivity.
  - repeat constructor.
Defined.

Lemma folder_row_ignores_file_data_witness :
  TaskNameFormatter text_as_NaN 0 0 (JStr "Docs") name_column
    (<["url" := JStr "http://x"]> docs_collapsed)
  = TaskNameFormatter text_as_NaN 0 0 (JStr "Docs") name_column docs_collapsed.
Proof.
  apply (folder_row_ignores_file_data text_as_NaN 0 0 name_column
           (JStr "Docs") (JStr "http://x") "url" docs_collapsed).
  - reflexivity.
  - repeat constructor.
Defined.


Lemma missing_indent_width_witness :
  exists rest : string,
    TaskNameFormatter text_as_NaN 0 0 (JStr "a&b.pdf") name_column (delete "indent" linked_pdf)
    = Return ("<span style='display:inline-block;height:1px;width:NaNpx'></span>" +:+ rest).
Proof.
  apply (missing_indent_width text_as_NaN 0 0 name_column
           "a&b.pdf" (delete "indent" linked_pdf)).
  reflexivity.
Defined.

Lemma negative_indent_width_witness :
  exists rest : string,
    TaskNameFormatter text_as_NaN 0 0 (JStr "Docs") name_column
      (<["indent" := JNum (Int (-2))]> docs_collapsed)
    = Return ("<span style='display:inline-block;height:1px;width:-36px'></span>" +:+ rest).
Proof.
  apply (negative_indent_width text_as_NaN 0 0 name_column
           "Docs" (<["indent" := JNum (Int (-2))]> docs_collapsed) (-2)).
  - reflexivity.
  - lia.
  - unfold max_safe. lia.
Defined.
